(** * The composer state container and its context accessor

    A shallow embedding of the message-composer state container of
    react-composition-pattern:

    - [composerStore.js] ([createComposerStore]): the Zustand vanilla store,
      with its field-wise [set];
    - [ComposerContext.jsx] (store-based [ComposerProvider], whose effect
      installs [wrappedSubmit]);
    - the [useState]-based [ComposerProvider], which keeps four state cells
      and builds a snapshot object on every render;
    - [ComposerContextValue.js] ([useComposer]).

    JavaScript objects used as maps are [gmap string val]; arrays are lists;
    [async] code is a state-and-exception monad over a [world] that holds the
    container, the log of calls made to the external handler, and the
    console. *)

From stdpp Require Import gmap strings list fin_maps.

Set Default Proof Using "Type".

(** ** JavaScript values *)

(** Primitive values.  Numbers are the integral ones ([Date.now()], counters);
    [NaN] and fractions are outside the model. *)
Inductive prim : Type :=
  | PUndefined
  | PNull
  | PBool (b : bool)
  | PNum (n : Z)
  | PStr (s : string).

#[warnings="-register-all"]
Inductive val : Type :=
  | VPrim (p : prim)
  | VArr (xs : list val)
  | VObj (o : gmap string val).

#[global] Instance prim_eq_dec : EqDecision prim.
Proof. solve_decision. Defined.

(** [x === y] on primitives: same type and same value. *)
Definition strict_eq (x y : prim) : bool := bool_decide (x = y).

(** [x !== y]. *)
Definition strict_neq (x y : prim) : bool := negb (strict_eq x y).

(** ** Composition session state *)

(** An attachment [{id, name, ...}]: its [id] and its other own properties. *)
Record attachment : Type := Attachment {
  id : prim;
  props : gmap string val;
}.

(** The attachment as the object the handler receives. *)
Definition attachment_val (a : attachment) : val :=
  VObj (<["id" := VPrim (id a)]> (props a)).

(** The four observable fields of a composer: what a consumer reads, and the
    four [useStateFn] cells of the [useState]-based provider. *)
Record State : Type := mkState {
  content : string;
  attachments : list attachment;
  metadata : gmap string val;
  isSubmitting : bool;
}.

(** ** The external submit handler *)

Inductive outcome : Type :=
  | Resolved
  | Rejected (error : val).

(** [onSubmit].  It is given the payloads of the calls made to it so far and
    the payload of this call; it settles by resolving (the value is ignored)
    or by throwing / rejecting with an error. *)
Definition handler : Type :=
  list (gmap string val) → gmap string val → outcome.

(** The object literal [{content, attachments, metadata, ...additionalData}]:
    properties are written in order, so a key of [additionalData] replaces
    the one written before it ([∪] on [gmap] prefers its left operand). *)
Definition payload (content : string) (attachments : list attachment)
    (metadata additionalData : gmap string val) : gmap string val :=
  additionalData ∪
  {[ "content" := VPrim (PStr content);
     "attachments" := VArr (attachment_val <$> attachments);
     "metadata" := VObj metadata ]}.

(** [new Error(message)]. *)
Definition Error (message : string) : val :=
  VObj {[ "name" := VPrim (PStr "Error");
          "message" := VPrim (PStr message) ]}.

(** ** Effects: container, handler calls, console *)

Inductive console_entry : Type :=
  | console_warn (message : string)
  | console_error (message : string) (error : val).

(** [S] is the container: the store state, or the four cells. *)
Record world (S : Type) : Type := World {
  container : S;
  calls : list (gmap string val);
  console : list console_entry;
}.
Arguments World {S} _ _ _.
Arguments container {S} _.
Arguments calls {S} _.
Arguments console {S} _.

(** How a statement or an [async] function ends: normally ([Normal], the
    promise is fulfilled) or by an exception ([Throw], it is rejected). *)
Inductive completion (A : Type) : Type :=
  | Normal (a : A)
  | Throw (error : val).
Arguments Normal {A} _.
Arguments Throw {A} _.

Definition M (S A : Type) : Type := world S → completion A * world S.

#[global] Instance M_ret {S} : MRet (M S) := λ A a w, (Normal a, w).

#[global] Instance M_bind {S} : MBind (M S) := λ A B k m w,
  match m w with
  | (Normal a, w') => k a w'
  | (Throw e, w') => (Throw e, w')
  end.

Definition get {S} : M S S := λ w, (Normal (container w), w).

Definition modify {S} (f : S → S) : M S unit :=
  λ w, (Normal tt, World (f (container w)) (calls w) (console w)).

Definition log {S} (entry : console_entry) : M S unit :=
  λ w, (Normal tt, World (container w) (calls w) (console w ++ [entry])).

(** [await onSubmit(p)]: the call is recorded, and the [await] throws what the
    handler threw or rejected with. *)
Definition await_call {S} (onSubmit : handler) (p : gmap string val) : M S unit :=
  λ w, let w' := World (container w) (calls w ++ [p]) (console w) in
       match onSubmit (calls w) p with
       | Resolved => (Normal tt, w')
       | Rejected e => (Throw e, w')
       end.

(** [try { body } catch (error) { on_error } finally { cleanup }]. *)
Definition try_catch_finally {S A} (body : M S A) (on_error : val → M S A)
    (cleanup : M S unit) : M S A :=
  λ w, let '(r, w1) := match body w with
                       | (Normal a, w') => (Normal a, w')
                       | (Throw e, w') => on_error e w'
                       end in
       match cleanup w1 with
       | (Normal _, w2) => (r, w2)
       | (Throw e, w2) => (Throw e, w2)
       end.

(** The world a computation leaves, and how it completed. *)
Definition exec {S A} (m : M S A) (w : world S) : world S := (m w).2.
Definition completes {S A} (m : M S A) (w : world S) : completion A := (m w).1.

(** ** Realization (a): the Zustand store ([composerStore.js]) *)

Module Store.

(** What the [submit] field holds: the placeholder of
    [createComposerStore], or the provider's [wrappedSubmit], closed over
    the [onSubmit] it was created for. *)
Inductive submit_fn : Type :=
  | placeholder
  | wrappedSubmit_of (onSubmit : handler).

(** The state object of the store (its action fields other than [submit]
    are never replaced; they are the definitions below). *)
Record t : Type := mk {
  content : string;
  attachments : list attachment;
  metadata : gmap string val;
  isSubmitting : bool;
  submit : submit_fn;
}.

(** A partial state object, as passed to [set] / [setState]: the keys it
    has. *)
Record partial : Type := Partial {
  content' : option string;
  attachments' : option (list attachment);
  metadata' : option (gmap string val);
  isSubmitting' : option bool;
  submit' : option submit_fn;
}.

(** [Object.assign({}, state, partial)]. *)
Definition assign (state : t) (p : partial) : t :=
  mk (default (content state) (content' p))
     (default (attachments state) (attachments' p))
     (default (metadata state) (metadata' p))
     (default (isSubmitting state) (isSubmitting' p))
     (default (submit state) (submit' p)).

(** [set(partial)] and [set((state) => partial)]. *)
Definition set (p : partial) : M t unit := modify (λ state, assign state p).
Definition set_fn (f : t → partial) : M t unit :=
  modify (λ state, assign state (f state)).

Definition setState := set.
Definition getState : M t t := get.

Definition createComposerStore (initialValue : string) : t :=
  mk initialValue [] ∅ false placeholder.

Definition updateContent (value : string) : M t unit :=
  set (Partial (Some value) None None None None).

Definition addAttachment (attachment : attachment) : M t unit :=
  set_fn (λ state,
    Partial None (Some (attachments state ++ [attachment])) None None None).

Definition removeAttachment (attachmentId : prim) : M t unit :=
  set_fn (λ state,
    Partial None
      (Some (filter (λ a, strict_neq (id a) attachmentId = true)
               (attachments state)))
      None None None).

Definition updateMetadata (key : string) (value : val) : M t unit :=
  set_fn (λ state,
    Partial None None (Some (<[key := value]> (metadata state))) None None).

Definition reset : M t unit :=
  set (Partial (Some "") (Some []) (Some ∅) None None).

(** [ComposerContext.jsx]: the function the provider's effect builds. *)
Definition wrappedSubmit (onSubmit : handler)
    (additionalData : gmap string val) : M t unit :=
  try_catch_finally
    (setState (Partial None None None (Some true) None);;
     state ← getState;
     await_call onSubmit
       (payload (content state) (attachments state) (metadata state)
          additionalData);;
     reset)
    (λ error, log (console_error "Submission failed:" error))
    (setState (Partial None None None (Some false) None)).

(** Calling the [submit] field of the current state. *)
Definition call_submit (additionalData : gmap string val) : M t unit :=
  state ← getState;
  match submit state with
  | placeholder => log (console_warn "Submit function not initialized")
  | wrappedSubmit_of onSubmit => wrappedSubmit onSubmit additionalData
  end.

(** The provider: the store is created once, and the effect stores
    [wrappedSubmit] for the current [onSubmit]. *)
Definition provider_effect (onSubmit : handler) : M t unit :=
  setState (Partial None None None None (Some (wrappedSubmit_of onSubmit))).

Definition ComposerProvider (onSubmit : handler) (initialValue : string) : t :=
  container
    (exec (provider_effect onSubmit)
       (World (createComposerStore initialValue) [] [])).

(** The four fields a consumer observes. *)
Definition observe (state : t) : State :=
  mkState (content state) (attachments state) (metadata state)
    (isSubmitting state).

End Store.

(** ** Realization (b): the [useState]-based provider *)

Module Hooks.

(** What a [useState] setter is given: a value, or an updater applied to
    the previous value. *)
Inductive action (A : Type) : Type :=
  | value_ (a : A)
  | updater (f : A → A).
Arguments value_ {A} _.
Arguments updater {A} _.

Definition apply {A} (act : action A) (prev : A) : A :=
  match act with
  | value_ a => a
  | updater f => f prev
  end.

(** The setters of the four cells ([useStateFn] is [useState]). *)
Definition setContent (act : action string) : M State unit :=
  modify (λ s, mkState (apply act (content s)) (attachments s) (metadata s)
                 (isSubmitting s)).
Definition setAttachments (act : action (list attachment)) : M State unit :=
  modify (λ s, mkState (content s) (apply act (attachments s)) (metadata s)
                 (isSubmitting s)).
Definition setMetadata (act : action (gmap string val)) : M State unit :=
  modify (λ s, mkState (content s) (attachments s) (apply act (metadata s))
                 (isSubmitting s)).
Definition setIsSubmitting (act : action bool) : M State unit :=
  modify (λ s, mkState (content s) (attachments s) (metadata s)
                 (apply act (isSubmitting s))).

(** The initial cells of [ComposerProvider({onSubmit, initialValue})]. *)
Definition ComposerProvider (initialValue : string) : State :=
  mkState initialValue [] ∅ false.

Definition updateContent (value : string) : M State unit :=
  setContent (value_ value).

Definition addAttachment (attachment : attachment) : M State unit :=
  setAttachments (updater (λ prev, prev ++ [attachment])).

Definition removeAttachment (attachmentId : prim) : M State unit :=
  setAttachments
    (updater (λ prev, filter (λ a, strict_neq (id a) attachmentId = true) prev)).

Definition updateMetadata (key : string) (value : val) : M State unit :=
  setMetadata (updater (λ prev, <[key := value]> prev)).

(** [submit] is a closure of one render: [rendered] holds the [content],
    [attachments] and [metadata] of that render. *)
Definition submit (onSubmit : handler) (rendered : State)
    (additionalData : gmap string val) : M State unit :=
  try_catch_finally
    (setIsSubmitting (value_ true);;
     await_call onSubmit
       (payload (content rendered) (attachments rendered) (metadata rendered)
          additionalData);;
     setContent (value_ "");;
     setAttachments (value_ []);;
     setMetadata (value_ ∅))
    (λ error, log (console_error "Submission failed:" error))
    (setIsSubmitting (value_ false)).

Definition reset : M State unit :=
  setContent (value_ "");;
  setAttachments (value_ []);;
  setMetadata (value_ ∅).

(** The [submit] of the context value of the latest render: the one a
    consumer that has re-rendered holds. *)
Definition call_submit (onSubmit : handler)
    (additionalData : gmap string val) : M State unit :=
  rendered ← get;
  submit onSubmit rendered additionalData.

End Hooks.

(** ** The accessor ([ComposerContextValue.js]) *)

(** [React.useContext(ComposerContext)]: the value of the nearest enclosing
    [ComposerContext.Provider] ([scope] lists them innermost first), or the
    default [null] of [createContext(null)] when there is none. *)
Definition useContext {C} (scope : list C) : option C := head scope.

(** [useComposer] declares no parameter: an argument a caller passes is
    dropped.  A provider's value is an object (the snapshot, or the store),
    hence truthy. *)
Definition useComposer {C X} (scope : list C) (selector : option (C → X))
    : completion C :=
  match useContext scope with
  | None => Throw (Error "useComposer must be used within ComposerProvider")
  | Some context => Normal context
  end.

(** [AdvancedPatterns.jsx], [TypingIndicator]: a consumer of the library.  It
    starts with [const { content } = useComposer()], renders nothing, and
    reports [content.length > 0] to [onTypingChange]: the flag is the
    result here. *)
Definition TypingIndicator (scope : list State) : completion bool :=
  match useComposer (X := unit) scope None with
  | Normal context => Normal (bool_decide (0 < String.length (content context)))
  | Throw e => Throw e
  end.

(** ** Events *)

(** One call of an operation by a consumer. *)
Inductive op : Type :=
  | UpdateContent (value : string)
  | AddAttachment (attachment : attachment)
  | RemoveAttachment (attachmentId : prim)
  | UpdateMetadata (key : string) (value : val)
  | Reset
  | Submit (additionalData : gmap string val).

Definition run_store (o : op) : M Store.t unit :=
  match o with
  | UpdateContent v => Store.updateContent v
  | AddAttachment a => Store.addAttachment a
  | RemoveAttachment i => Store.removeAttachment i
  | UpdateMetadata k v => Store.updateMetadata k v
  | Reset => Store.reset
  | Submit e => Store.call_submit e
  end.

Definition run_hooks (onSubmit : handler) (o : op) : M State unit :=
  match o with
  | UpdateContent v => Hooks.updateContent v
  | AddAttachment a => Hooks.addAttachment a
  | RemoveAttachment i => Hooks.removeAttachment i
  | UpdateMetadata k v => Hooks.updateMetadata k v
  | Reset => Hooks.reset
  | Submit e => Hooks.call_submit onSubmit e
  end.

(** A sequence of events, one after the other. *)
Fixpoint run_all {S} (run : op → M S unit) (os : list op) : M S unit :=
  match os with
  | [] => mret tt
  | o :: os' => run o;; run_all run os'
  end.

(** ** The payload of a submit *)

(** The object [wrappedSubmit] hands to the handler when the store holds
    [state], and the one [submit] of the render of [rendered] hands to it. *)
Definition store_payload (state : Store.t) (additionalData : gmap string val)
    : gmap string val :=
  payload (Store.content state) (Store.attachments state)
    (Store.metadata state) additionalData.

Definition hooks_payload (rendered : State) (additionalData : gmap string val)
    : gmap string val :=
  payload (content rendered) (attachments rendered) (metadata rendered)
    additionalData.

(** ** What the specification says of [removeAttachment] *)

(** "Removes the first entry whose id matches; no-op if no match found." *)
Fixpoint remove_first (attachmentId : prim) (l : list attachment)
    : list attachment :=
  match l with
  | [] => []
  | a :: l' =>
      if strict_eq (id a) attachmentId then l'
      else a :: remove_first attachmentId l'
  end.

(** ** Corresponding worlds of the two realizations *)

(** A world of the store whose provider was given [onSubmit], and a world of
    the [useState]-based provider, that show a consumer the same four fields
    and have the same handler calls and console. *)
Definition same_view (onSubmit : handler)
    (wa : world Store.t) (wb : world State) : Prop :=
  Store.submit (container wa) = Store.wrappedSubmit_of onSubmit ∧
  Store.observe (container wa) = container wb ∧
  calls wa = calls wb ∧
  console wa = console wb.

(** ** Counting the submits of a sequence of events *)

Definition is_submit (o : op) : bool :=
  match o with
  | Submit _ => true
  | _ => false
  end.

(** The number of [submit] calls among the events. *)
Definition submits (os : list op) : nat := length (filter (λ o, is_submit o = true) os).

(** ** A provider without [onSubmit] *)

(** [new TypeError(message)], as the engine throws it when a value that is
    not a function is called; the text of the message is the engine's. *)
Definition TypeError (message : string) : val :=
  VObj {[ "name" := VPrim (PStr "TypeError");
          "message" := VPrim (PStr message) ]}.

(** [await onSubmit(p)] where the prop may be missing: calling [undefined]
    throws a [TypeError] and reaches no handler. *)
Definition await_prop {S} (not_a_function : string) (onSubmit : option handler)
    (p : gmap string val) : M S unit :=
  match onSubmit with
  | Some h => await_call h p
  | None => λ w, (Throw (TypeError not_a_function), w)
  end.

(** [wrappedSubmit] of [ComposerContext.jsx] for an [onSubmit] prop that may
    be missing, as in [<ComposerProvider initialValue="">] of
    [MockComposerProvider] and [TestComposerContext]. *)
Definition wrappedSubmit_prop (not_a_function : string)
    (onSubmit : option handler) (additionalData : gmap string val)
    : M Store.t unit :=
  try_catch_finally
    (Store.setState (Store.Partial None None None (Some true) None);;
     state ← Store.getState;
     await_prop not_a_function onSubmit
       (payload (Store.content state) (Store.attachments state)
          (Store.metadata state) additionalData);;
     Store.reset)
    (λ error, log (console_error "Submission failed:" error))
    (Store.setState (Store.Partial None None None (Some false) None)).

(** ** The composed variants ([ComposerExamples.jsx]) *)

(** The object literals the three variants build around the submitted
    [data]: [{type: 'channel', channel: channelName, ...data}] and its
    siblings.  [data] is spread last. *)
Definition channel_message (channelName : string) (data : gmap string val)
    : gmap string val :=
  data ∪ {[ "type" := VPrim (PStr "channel");
            "channel" := VPrim (PStr channelName) ]}.

Definition thread_message (threadId : prim) (channelName : string)
    (data : gmap string val) : gmap string val :=
  data ∪ {[ "type" := VPrim (PStr "thread_reply");
            "threadId" := VPrim threadId;
            "channel" := VPrim (PStr channelName) ]}.

Definition edit_message (messageId : prim) (data : gmap string val)
    : gmap string val :=
  data ∪ {[ "type" := VPrim (PStr "edit_message");
            "messageId" := VPrim messageId ]}.

(** The [onSubmit] a variant gives its provider:
    [async (data) => { await callback(message(data)) }].  The callback has
    been given the messages of the earlier submits. *)
Definition variant_onSubmit (message : gmap string val → gmap string val)
    (callback : handler) : handler :=
  λ sent data, callback (message <$> sent) (message data).


Definition ThreadComposer (threadId : prim) (channelName : string)
    (onReplyToThread : handler) : Store.t :=
  Store.ComposerProvider
    (variant_onSubmit (thread_message threadId channelName) onReplyToThread) "".

Definition EditMessageComposer (messageId : prim) (currentContent : string)
    (onSaveEdit : handler) : Store.t :=
  Store.ComposerProvider
    (variant_onSubmit (edit_message messageId) onSaveEdit) currentContent.


(** [CancelButton]: [onClick={reset}]. *)
Definition CancelButton_onClick : M Store.t unit := Store.reset.

(** [ChannelAttachButton]: [handleAttach] adds a file whose id is
    [Date.now()], here [now]. *)
Definition fakeFile (now : Z) : attachment :=
  Attachment (PNum now)
    {[ "name" := VPrim (PStr "document.pdf");
       "size" := VPrim (PStr "2.4 MB") ]}.


(** ** [ComposerAttachments] ([ComposerComponents.jsx]) *)





(** ** [withComposerTracking] ([advancedUtils.js]) *)

(** The state of [TrackedComposer]: the [messageCount] cell, and the lines
    [handleSubmit] wrote with [console.log] (the number shown and the
    data). *)
Record tracking : Type := Tracking {
  messageCount : nat;
  logged : list (nat * gmap string val);
}.

(** [handleSubmit] of the render that saw [rendered] as [messageCount];
    [onSubmit] is [props.onSubmit], which may be missing. *)
Definition handleSubmit (onSubmit : option handler) (rendered : nat)
    (data : gmap string val) : M tracking unit :=
  modify (λ t, Tracking (messageCount t) (logged t ++ [(rendered + 1, data)]));;
  modify (λ t, Tracking (messageCount t + 1) (logged t));;
  match onSubmit with
  | Some h => await_call h data
  | None => mret tt
  end.

(** A submit made from the latest render of [TrackedComposer]. *)
Definition tracked_submit (onSubmit : option handler)
    (data : gmap string val) : M tracking unit :=
  t ← get;
  handleSubmit onSubmit (messageCount t) data.

(** Submits that follow one another, each from the latest render; a
    rejected one does not stop the next. *)
Fixpoint tracked_submits (onSubmit : option handler)
    (datas : list (gmap string val)) (w : world tracking) : world tracking :=
  match datas with
  | [] => w
  | data :: datas' =>
      tracked_submits onSubmit datas' (exec (tracked_submit onSubmit data) w)
  end.

(** * Properties *)

(** ** Strict equality *)

Lemma strict_neq_true (x y : prim) : strict_neq x y = true ↔ x ≠ y.
Proof.
  unfold strict_neq, strict_eq. rewrite negb_true_iff, bool_decide_eq_false.
  done.
Qed.

Lemma strict_eq_true (x y : prim) : strict_eq x y = true ↔ x = y.
Proof. unfold strict_eq. apply bool_decide_eq_true. Qed.

(** ** The attachment filter of [removeAttachment] *)

Section attachment_filter.
Variable attachmentId : prim.

Local Abbreviation kept l :=
  (filter (λ a : attachment, strict_neq (id a) attachmentId = true) l).

Lemma kept_elem_of (l : list attachment) (a : attachment) :
  a ∈ kept l ↔ a ∈ l ∧ id a ≠ attachmentId.
Proof.
  rewrite list_elem_of_filter, strict_neq_true. tauto.
Qed.

Lemma kept_sublist (l : list attachment) : kept l `sublist_of` l.
Proof. apply sublist_filter. Qed.

Lemma kept_no_match (l : list attachment) :
  attachmentId ∉ id <$> l → kept l = l.
Proof.
  induction l as [|a l IH]; intros Hnot; [done|].
  rewrite fmap_cons, not_elem_of_cons in Hnot. destruct Hnot as [Hne Hnot].
  rewrite filter_cons_True by (apply strict_neq_true; congruence).
  by rewrite IH.
Qed.

Lemma kept_unique (l : list attachment) :
  NoDup (id <$> l) → kept l = remove_first attachmentId l.
Proof.
  induction l as [|a l IH]; intros Hnd; [done|].
  rewrite fmap_cons, NoDup_cons in Hnd. destruct Hnd as [Hfresh Hnd].
  simpl. destruct (strict_eq (id a) attachmentId) eqn:Heq.
  - apply strict_eq_true in Heq.
    rewrite filter_cons_False by (rewrite strict_neq_true; tauto).
    apply kept_no_match. by rewrite <- Heq.
  - rewrite filter_cons_True.
    + by rewrite IH.
    + unfold strict_neq. by rewrite Heq.
Qed.
End attachment_filter.

(** ** Equations of the operations *)

(** What each operation of the store does to a world. *)
Section store_equations.
Variable w : world Store.t.
Let s := container w.


Lemma store_addAttachment (a : attachment) :
  Store.addAttachment a w =
  (Normal tt,
   World (Store.mk (Store.content s) (Store.attachments s ++ [a])
            (Store.metadata s) (Store.isSubmitting s) (Store.submit s))
     (calls w) (console w)).
Proof. reflexivity. Qed.

Lemma store_removeAttachment (i : prim) :
  Store.removeAttachment i w =
  (Normal tt,
   World (Store.mk (Store.content s)
            (filter (λ a, strict_neq (id a) i = true) (Store.attachments s))
            (Store.metadata s) (Store.isSubmitting s) (Store.submit s))
     (calls w) (console w)).
Proof. reflexivity. Qed.

Lemma store_updateMetadata (key : string) (value : val) :
  Store.updateMetadata key value w =
  (Normal tt,
   World (Store.mk (Store.content s) (Store.attachments s)
            (<[key := value]> (Store.metadata s)) (Store.isSubmitting s)
            (Store.submit s))
     (calls w) (console w)).
Proof. reflexivity. Qed.

Lemma store_reset :
  Store.reset w =
  (Normal tt,
   World (Store.mk "" [] ∅ (Store.isSubmitting s) (Store.submit s))
     (calls w) (console w)).
Proof. reflexivity. Qed.

Lemma store_wrappedSubmit (onSubmit : handler) (e : gmap string val) :
  Store.wrappedSubmit onSubmit e w =
  match onSubmit (calls w) (store_payload s e) with
  | Resolved =>
      (Normal tt,
       World (Store.mk "" [] ∅ false (Store.submit s))
         (calls w ++ [store_payload s e]) (console w))
  | Rejected error =>
      (Normal tt,
       World (Store.mk (Store.content s) (Store.attachments s)
                (Store.metadata s) false (Store.submit s))
         (calls w ++ [store_payload s e])
         (console w ++ [console_error "Submission failed:" error]))
  end.
Proof.
  unfold Store.wrappedSubmit, try_catch_finally, mbind, M_bind, await_call.
  simpl. unfold store_payload, s.
  by destruct (onSubmit _ _).
Qed.
End store_equations.

(** What each operation of the [useState]-based provider does to a world. *)
Section hooks_equations.
Variable w : world State.
Let s := container w.

Lemma hooks_updateContent (value : string) :
  Hooks.updateContent value w =
  (Normal tt,
   World (mkState value (attachments s) (metadata s) (isSubmitting s))
     (calls w) (console w)).
Proof. reflexivity. Qed.

Lemma hooks_addAttachment (a : attachment) :
  Hooks.addAttachment a w =
  (Normal tt,
   World (mkState (content s) (attachments s ++ [a]) (metadata s)
            (isSubmitting s))
     (calls w) (console w)).
Proof. reflexivity. Qed.

Lemma hooks_removeAttachment (i : prim) :
  Hooks.removeAttachment i w =
  (Normal tt,
   World (mkState (content s)
            (filter (λ a, strict_neq (id a) i = true) (attachments s))
            (metadata s) (isSubmitting s))
     (calls w) (console w)).
Proof. reflexivity. Qed.

Lemma hooks_updateMetadata (key : string) (value : val) :
  Hooks.updateMetadata key value w =
  (Normal tt,
   World (mkState (content s) (attachments s) (<[key := value]> (metadata s))
            (isSubmitting s))
     (calls w) (console w)).
Proof. reflexivity. Qed.

Lemma hooks_reset :
  Hooks.reset w =
  (Normal tt, World (mkState "" [] ∅ (isSubmitting s)) (calls w) (console w)).
Proof. reflexivity. Qed.

(** [submit] of any render, also a stale one: the payload is built from the
    render, the cells are the current ones. *)
Lemma hooks_submit (onSubmit : handler) (rendered : State)
    (e : gmap string val) :
  Hooks.submit onSubmit rendered e w =
  match onSubmit (calls w) (hooks_payload rendered e) with
  | Resolved =>
      (Normal tt,
       World (mkState "" [] ∅ false)
         (calls w ++ [hooks_payload rendered e]) (console w))
  | Rejected error =>
      (Normal tt,
       World (mkState (content s) (attachments s) (metadata s) false)
         (calls w ++ [hooks_payload rendered e])
         (console w ++ [console_error "Submission failed:" error]))
  end.
Proof.
  unfold Hooks.submit, try_catch_finally, mbind, M_bind, await_call.
  simpl. unfold hooks_payload, s.
  by destruct (onSubmit _ _).
Qed.

Lemma hooks_call_submit (onSubmit : handler) (e : gmap string val) :
  Hooks.call_submit onSubmit e w = Hooks.submit onSubmit s e w.
Proof. reflexivity. Qed.
End hooks_equations.

(** ** reset *)

(** C5. After [reset()], whatever the state was, the content is the empty
    string, the attachments the empty sequence and the metadata the empty
    mapping, and [isSubmitting] is what it was: in the store and in the
    [useState]-based provider alike.  The call completes normally. *)
Theorem reset_clears_and_keeps_isSubmitting
    (wa : world Store.t) (wb : world State) :
  let sa := container (exec Store.reset wa) in
  let sb := container (exec Hooks.reset wb) in
  (Store.content sa = "" ∧ Store.attachments sa = [] ∧ Store.metadata sa = ∅ ∧
   Store.isSubmitting sa = Store.isSubmitting (container wa) ∧
   completes Store.reset wa = Normal tt) ∧
  (content sb = "" ∧ attachments sb = [] ∧ metadata sb = ∅ ∧
   isSubmitting sb = isSubmitting (container wb) ∧
   completes Hooks.reset wb = Normal tt).
Proof.
  unfold exec, completes. rewrite store_reset, hooks_reset. simpl.
  repeat split.
Qed.

(** ** updateMetadata *)

(** C6. [updateMetadata(k, v)] followed by [updateMetadata(k, v2)] leaves
    [metadata[k] == v2], whether or not [k] was there before (the first value
    is overwritten silently), and every other key maps to what it mapped to
    before the two calls; content, attachments and [isSubmitting] are not
    touched.  In the store and in the [useState]-based provider alike. *)
Theorem updateMetadata_twice (wa : world Store.t) (wb : world State)
    (k : string) (v v2 : val) :
  let sa := container (exec (Store.updateMetadata k v;;
                             Store.updateMetadata k v2) wa) in
  let sb := container (exec (Hooks.updateMetadata k v;;
                             Hooks.updateMetadata k v2) wb) in
  (Store.metadata sa !! k = Some v2 ∧
   (∀ k', k' ≠ k →
      Store.metadata sa !! k' = Store.metadata (container wa) !! k') ∧
   Store.content sa = Store.content (container wa) ∧
   Store.attachments sa = Store.attachments (container wa) ∧
   Store.isSubmitting sa = Store.isSubmitting (container wa)) ∧
  (metadata sb !! k = Some v2 ∧
   (∀ k', k' ≠ k → metadata sb !! k' = metadata (container wb) !! k') ∧
   content sb = content (container wb) ∧
   attachments sb = attachments (container wb) ∧
   isSubmitting sb = isSubmitting (container wb)).
Proof.
  unfold exec, mbind, M_bind.
  rewrite store_updateMetadata, store_updateMetadata.
  rewrite hooks_updateMetadata, hooks_updateMetadata. simpl.
  split; (split; [apply lookup_insert_eq|]);
    (split; [|done]); intros k' Hne;
    by rewrite !lookup_insert_ne.
Qed.

(** A run of C6: [draft] is set to [true] and then to [false] while a
    [thread] key is present. *)
Lemma updateMetadata_twice_witness :
  let m : gmap string val := {[ "thread" := VPrim (PStr "t-1") ]} in
  let wa := World (Store.mk "hi" [] m false Store.placeholder) [] [] in
  let sa := container (exec (Store.updateMetadata "draft" (VPrim (PBool true));;
                             Store.updateMetadata "draft" (VPrim (PBool false)))
                         wa) in
  Store.metadata sa !! "draft" = Some (VPrim (PBool false)) ∧
  Store.metadata sa !! "thread" = Some (VPrim (PStr "t-1")).
Proof.
  intros m wa sa.
  destruct (updateMetadata_twice wa (World (mkState "hi" [] m false) [] [])
              "draft" (VPrim (PBool true)) (VPrim (PBool false)))
    as [(Hk & Hother & _) _].
  split; [exact Hk|].
  refine (eq_trans (Hother "thread" _) _); [discriminate | reflexivity].
Defined.

(** ** addAttachment *)

Lemma store_add_all (items : list attachment) (w : world Store.t) :
  run_all run_store (AddAttachment <$> items) w =
  (Normal tt,
   World (Store.mk (Store.content (container w))
            (Store.attachments (container w) ++ items)
            (Store.metadata (container w)) (Store.isSubmitting (container w))
            (Store.submit (container w)))
     (calls w) (console w)).
Proof.
  revert w. induction items as [|a items IH]; intros w.
  - simpl. rewrite app_nil_r. by destruct w as [[] ? ?].
  - rewrite fmap_cons. simpl. unfold mbind, M_bind.
    rewrite store_addAttachment, IH. simpl. by rewrite <- app_assoc.
Qed.

Lemma hooks_add_all (onSubmit : handler) (items : list attachment)
    (w : world State) :
  run_all (run_hooks onSubmit) (AddAttachment <$> items) w =
  (Normal tt,
   World (mkState (content (container w)) (attachments (container w) ++ items)
            (metadata (container w)) (isSubmitting (container w)))
     (calls w) (console w)).
Proof.
  revert w. induction items as [|a items IH]; intros w.
  - simpl. rewrite app_nil_r. by destruct w as [[] ? ?].
  - rewrite fmap_cons. simpl. unfold mbind, M_bind.
    rewrite hooks_addAttachment, IH. simpl. by rewrite <- app_assoc.
Qed.

(** C7. A sequence of [addAttachment] calls appends its items, in call order,
    to the attachments there were: from the empty sequence of a new composer
    the attachments are exactly the items, and their number is the number of
    calls.  Nothing is deduplicated (the items are arbitrary, so also with
    repeated ids) and every call completes normally.  In the store and in
    the [useState]-based provider alike. *)
Theorem addAttachment_sequence (onSubmit : handler) (initialValue : string)
    (items : list attachment) (wa : world Store.t) (wb : world State) :
  let adds := AddAttachment <$> items in
  let new_a := World (Store.ComposerProvider onSubmit initialValue) [] [] in
  let new_b := World (Hooks.ComposerProvider initialValue) [] [] in
  (Store.attachments (container (exec (run_all run_store adds) new_a)) = items ∧
   length (Store.attachments (container (exec (run_all run_store adds) new_a)))
     = length adds ∧
   Store.attachments (container (exec (run_all run_store adds) wa))
     = Store.attachments (container wa) ++ items ∧
   completes (run_all run_store adds) wa = Normal tt) ∧
  (attachments (container (exec (run_all (run_hooks onSubmit) adds) new_b))
     = items ∧
   length (attachments
             (container (exec (run_all (run_hooks onSubmit) adds) new_b)))
     = length adds ∧
   attachments (container (exec (run_all (run_hooks onSubmit) adds) wb))
     = attachments (container wb) ++ items ∧
   completes (run_all (run_hooks onSubmit) adds) wb = Normal tt).
Proof.
  intros adds new_a new_b. unfold exec, completes, adds.
  rewrite !store_add_all, !hooks_add_all. simpl.
  rewrite length_fmap. repeat split.
Qed.

(** ** removeAttachment *)

(** What the filter of [removeAttachment] makes of a list. *)
Lemma filter_removes_every_match (attachmentId : prim) (l : list attachment) :
  let after := filter (λ a, strict_neq (id a) attachmentId = true) l in
  after = filter (λ a, id a ≠ attachmentId) l ∧
  (∀ a, a ∈ after ↔ a ∈ l ∧ id a ≠ attachmentId) ∧
  after `sublist_of` l ∧
  (attachmentId ∉ id <$> l → after = l) ∧
  (NoDup (id <$> l) → after = remove_first attachmentId l).
Proof.
  intros after. split_and!.
  - apply list_filter_iff. intros a. apply strict_neq_true.
  - intros a. apply kept_elem_of.
  - apply kept_sublist.
  - apply kept_no_match.
  - apply kept_unique.
Qed.

(** C3, as the code has it.  [removeAttachment(id)] removes every entry whose
    id matches and keeps the others in order; it is a no-op, and completes
    normally, when no entry matches; when the ids are unique it removes the
    first (and only) match.  Content, metadata and [isSubmitting] are not
    touched.  In the store and in the [useState]-based provider alike. *)
Theorem removeAttachment_removes_every_match (attachmentId : prim)
    (wa : world Store.t) (wb : world State) :
  let before_a := Store.attachments (container wa) in
  let before_b := attachments (container wb) in
  let sa := container (exec (Store.removeAttachment attachmentId) wa) in
  let sb := container (exec (Hooks.removeAttachment attachmentId) wb) in
  (Store.attachments sa = filter (λ a, id a ≠ attachmentId) before_a ∧
   (∀ a, a ∈ Store.attachments sa ↔ a ∈ before_a ∧ id a ≠ attachmentId) ∧
   Store.attachments sa `sublist_of` before_a ∧
   (attachmentId ∉ id <$> before_a → Store.attachments sa = before_a) ∧
   (NoDup (id <$> before_a) →
      Store.attachments sa = remove_first attachmentId before_a) ∧
   Store.content sa = Store.content (container wa) ∧
   Store.metadata sa = Store.metadata (container wa) ∧
   Store.isSubmitting sa = Store.isSubmitting (container wa) ∧
   completes (Store.removeAttachment attachmentId) wa = Normal tt) ∧
  (attachments sb = filter (λ a, id a ≠ attachmentId) before_b ∧
   (∀ a, a ∈ attachments sb ↔ a ∈ before_b ∧ id a ≠ attachmentId) ∧
   attachments sb `sublist_of` before_b ∧
   (attachmentId ∉ id <$> before_b → attachments sb = before_b) ∧
   (NoDup (id <$> before_b) →
      attachments sb = remove_first attachmentId before_b) ∧
   content sb = content (container wb) ∧
   metadata sb = metadata (container wb) ∧
   isSubmitting sb = isSubmitting (container wb) ∧
   completes (Hooks.removeAttachment attachmentId) wb = Normal tt).
Proof.
  intros before_a before_b sa sb. unfold sa, sb, exec, completes.
  rewrite store_removeAttachment, hooks_removeAttachment. simpl.
  destruct (filter_removes_every_match attachmentId before_a)
    as (? & ? & ? & ? & ?).
  destruct (filter_removes_every_match attachmentId before_b)
    as (? & ? & ? & ? & ?).
  by split_and!.
Qed.

(** A run of C3 as amended: two attachments with ids 1 and 2, and the id 3
    that matches neither. *)
Lemma removeAttachment_removes_every_match_witness :
  let a1 := Attachment (PNum 1) {[ "name" := VPrim (PStr "a.pdf") ]} in
  let a2 := Attachment (PNum 2) {[ "name" := VPrim (PStr "b.pdf") ]} in
  let wa := World (Store.mk "hi" [a1; a2] ∅ false Store.placeholder) [] [] in
  let after :=
    Store.attachments (container (exec (Store.removeAttachment (PNum 3)) wa)) in
  after = [a1; a2] ∧ after = remove_first (PNum 3) [a1; a2].
Proof.
  intros a1 a2 wa after.
  destruct (removeAttachment_removes_every_match (PNum 3) wa
              (World (mkState "hi" [a1; a2] ∅ false) [] []))
    as [(_ & _ & _ & Hnone & Hunique & _) _].
  split.
  - apply Hnone. apply (bool_decide_unpack _). vm_compute. exact I.
  - apply Hunique. apply (bool_decide_unpack _). vm_compute. exact I.
Defined.

(** C3, as the specification words it, fails: with two entries of id 1,
    [removeAttachment(1)] leaves no attachment, where removing the first
    match only would leave the second entry. *)
Lemma removeAttachment_first_match_only_fails :
  let a1 := Attachment (PNum 1) {[ "name" := VPrim (PStr "a.pdf") ]} in
  let a2 := Attachment (PNum 1) {[ "name" := VPrim (PStr "b.pdf") ]} in
  let wa := World (Store.mk "hi" [a1; a2] ∅ false Store.placeholder) [] [] in
  let wb := World (mkState "hi" [a1; a2] ∅ false) [] [] in
  Store.attachments (container (exec (Store.removeAttachment (PNum 1)) wa)) = [] ∧
  attachments (container (exec (Hooks.removeAttachment (PNum 1)) wb)) = [] ∧
  remove_first (PNum 1) [a1; a2] = [a2] ∧
  Store.attachments (container (exec (Store.removeAttachment (PNum 1)) wa))
    ≠ remove_first (PNum 1) [a1; a2].
Proof.
  intros a1 a2 wa wb. split_and!; [reflexivity | reflexivity | reflexivity |].
  discriminate.
Qed.

(** ** submit *)

(** C1. When the handler resolves, [submit(e)] has called it exactly once,
    with [{content: c, attachments: a, metadata: m}] merged with [e], where
    [c], [a] and [m] are the state at the call: the store's state for
    [wrappedSubmit], and for [submit] of the [useState]-based provider the
    state of the render it belongs to.  Afterwards the content is the empty
    string, the attachments and the metadata are empty and [isSubmitting] is
    [false].  Nothing is logged and the call completes normally. *)
Theorem submit_resolved_resets (onSubmit : handler) (e : gmap string val)
    (wa : world Store.t) (rendered : State) (wb : world State) :
  let pa : gmap string val :=
    e ∪ {[ "content" := VPrim (PStr (Store.content (container wa)));
           "attachments" :=
             VArr (attachment_val <$> Store.attachments (container wa));
           "metadata" := VObj (Store.metadata (container wa)) ]} in
  let pb : gmap string val :=
    e ∪ {[ "content" := VPrim (PStr (content rendered));
           "attachments" := VArr (attachment_val <$> attachments rendered);
           "metadata" := VObj (metadata rendered) ]} in
  onSubmit (calls wa) pa = Resolved →
  onSubmit (calls wb) pb = Resolved →
  (let wa' := exec (Store.wrappedSubmit onSubmit e) wa in
   calls wa' = calls wa ++ [pa] ∧
   Store.observe (container wa') = mkState "" [] ∅ false ∧
   console wa' = console wa ∧
   completes (Store.wrappedSubmit onSubmit e) wa = Normal tt) ∧
  (let wb' := exec (Hooks.submit onSubmit rendered e) wb in
   calls wb' = calls wb ++ [pb] ∧
   container wb' = mkState "" [] ∅ false ∧
   console wb' = console wb ∧
   completes (Hooks.submit onSubmit rendered e) wb = Normal tt).
Proof.
  intros pa pb Ha Hb. unfold exec, completes.
  rewrite store_wrappedSubmit, hooks_submit.
  change (store_payload (container wa) e) with pa.
  change (hooks_payload rendered e) with pb.
  rewrite Ha, Hb. simpl. done.
Qed.

(** The scenario of the specification: the content is "Hello team!", the
    handler resolves, and [submit()] is called with no extra data. *)
Lemma submit_resolved_resets_witness :
  let onSubmit : handler := λ _ _, Resolved in
  let p : gmap string val :=
    {[ "content" := VPrim (PStr "Hello team!");
       "attachments" := VArr []; "metadata" := VObj ∅ ]} in
  let wa := World (Store.ComposerProvider onSubmit "Hello team!") [] [] in
  let wa' := exec (Store.wrappedSubmit onSubmit ∅) wa in
  calls wa' = [p] ∧ Store.observe (container wa') = mkState "" [] ∅ false.
Proof.
  intros onSubmit p wa wa'.
  destruct (submit_resolved_resets onSubmit ∅ wa
              (Hooks.ComposerProvider "Hello team!")
              (World (Hooks.ComposerProvider "Hello team!") [] []))
    as [(Hcalls & Hstate & _) _]; [reflexivity | reflexivity |].
  split; [|exact Hstate].
  refine (eq_trans Hcalls _). vm_compute. reflexivity.
Defined.

(** C2. When the handler throws or rejects, the error is caught and logged
    with [console.error]; the call completes normally (nothing is re-thrown
    to the caller); content, attachments and metadata are what they were
    before the call (no reset), and [isSubmitting] is [false].  The handler
    was called once.  In the store and in the [useState]-based provider
    (for the [submit] of any render) alike. *)
Theorem submit_rejected_keeps_state (onSubmit : handler)
    (e : gmap string val) (error : val)
    (wa : world Store.t) (rendered : State) (wb : world State) :
  onSubmit (calls wa) (store_payload (container wa) e) = Rejected error →
  onSubmit (calls wb) (hooks_payload rendered e) = Rejected error →
  (let wa' := exec (Store.wrappedSubmit onSubmit e) wa in
   completes (Store.wrappedSubmit onSubmit e) wa = Normal tt ∧
   console wa' = console wa ++ [console_error "Submission failed:" error] ∧
   Store.content (container wa') = Store.content (container wa) ∧
   Store.attachments (container wa') = Store.attachments (container wa) ∧
   Store.metadata (container wa') = Store.metadata (container wa) ∧
   Store.isSubmitting (container wa') = false ∧
   calls wa' = calls wa ++ [store_payload (container wa) e]) ∧
  (let wb' := exec (Hooks.submit onSubmit rendered e) wb in
   completes (Hooks.submit onSubmit rendered e) wb = Normal tt ∧
   console wb' = console wb ++ [console_error "Submission failed:" error] ∧
   content (container wb') = content (container wb) ∧
   attachments (container wb') = attachments (container wb) ∧
   metadata (container wb') = metadata (container wb) ∧
   isSubmitting (container wb') = false ∧
   calls wb' = calls wb ++ [hooks_payload rendered e]).
Proof.
  intros Ha Hb. unfold exec, completes.
  rewrite store_wrappedSubmit, hooks_submit, Ha, Hb. simpl. done.
Qed.

(** A handler that rejects every call, on a composer that holds a draft. *)
Lemma submit_rejected_keeps_state_witness :
  let error := Error "network down" in
  let onSubmit : handler := λ _ _, Rejected error in
  let a := Attachment (PNum 7) {[ "name" := VPrim (PStr "a.pdf") ]} in
  let wb := World (mkState "draft" [a] {[ "thread" := VPrim (PNum 4) ]} true)
              [] [] in
  let wb' := exec (Hooks.submit onSubmit (container wb) ∅) wb in
  completes (Hooks.submit onSubmit (container wb) ∅) wb = Normal tt ∧
  content (container wb') = "draft" ∧
  attachments (container wb') = [a] ∧
  isSubmitting (container wb') = false.
Proof.
  intros error onSubmit a wb wb'.
  destruct (submit_rejected_keeps_state onSubmit ∅ error
              (World (Store.mk "draft" [a] {[ "thread" := VPrim (PNum 4) ]}
                        true (Store.wrappedSubmit_of onSubmit)) [] [])
              (container wb) wb)
    as [_ (Hdone & _ & Hc & Ha & _ & Hs & _)]; [reflexivity | reflexivity |].
  split_and!; [exact Hdone | exact Hc | exact Ha | exact Hs].
Defined.

(** ** The payload: extra data against the snapshot *)

Lemma payload_lookup_extra (c : string) (a : list attachment)
    (m e : gmap string val) (k : string) (x : val) :
  e !! k = Some x → payload c a m e !! k = Some x.
Proof. intros Hk. unfold payload. by apply lookup_union_Some_l. Qed.

Lemma payload_lookup_snapshot (c : string) (a : list attachment)
    (m e : gmap string val) (k : string) :
  e !! k = None → payload c a m e !! k = payload c a m ∅ !! k.
Proof.
  intros Hk. unfold payload.
  rewrite lookup_union_r by done. by rewrite (left_id_L ∅ (∪)).
Qed.

Lemma store_wrappedSubmit_calls (onSubmit : handler) (e : gmap string val)
    (w : world Store.t) :
  calls (exec (Store.wrappedSubmit onSubmit e) w)
  = calls w ++ [store_payload (container w) e].
Proof.
  unfold exec. rewrite store_wrappedSubmit. by destruct (onSubmit _ _).
Qed.

Lemma hooks_submit_calls (onSubmit : handler) (rendered : State)
    (e : gmap string val) (w : world State) :
  calls (exec (Hooks.submit onSubmit rendered e) w)
  = calls w ++ [hooks_payload rendered e].
Proof.
  unfold exec. rewrite hooks_submit. by destruct (onSubmit _ _).
Qed.

(** C10. In the payload the handler is called with, a key of the extra data
    has the value the extra data gives it, also when the key is [content],
    [attachments] or [metadata]; a key the extra data lacks has the value of
    the snapshot.  The state [submit(e)] leaves depends on [e] only through
    the way the handler settles: it is the state that [submit()] leaves
    with a handler settling that way.  In the store and in the
    [useState]-based provider (for the [submit] of any render) alike. *)
Theorem extra_data_overrides_snapshot (onSubmit : handler)
    (e : gmap string val) (k : string) (x : val)
    (wa : world Store.t) (rendered : State) (wb : world State) :
  e !! k = Some x →
  (∃ p, calls (exec (Store.wrappedSubmit onSubmit e) wa) = calls wa ++ [p] ∧
        p !! k = Some x ∧
        (∀ k', e !! k' = None → p !! k' = store_payload (container wa) ∅ !! k')) ∧
  container (exec (Store.wrappedSubmit onSubmit e) wa)
  = container
      (exec (Store.wrappedSubmit
               (λ _ _, onSubmit (calls wa) (store_payload (container wa) e)) ∅)
         wa) ∧
  (∃ p, calls (exec (Hooks.submit onSubmit rendered e) wb) = calls wb ++ [p] ∧
        p !! k = Some x ∧
        (∀ k', e !! k' = None → p !! k' = hooks_payload rendered ∅ !! k')) ∧
  container (exec (Hooks.submit onSubmit rendered e) wb)
  = container
      (exec (Hooks.submit
               (λ _ _, onSubmit (calls wb) (hooks_payload rendered e))
               rendered ∅)
         wb).
Proof.
  intros Hk. split_and!.
  - eexists. split; [apply store_wrappedSubmit_calls|].
    split; [by apply payload_lookup_extra|].
    intros k' Hk'. by apply payload_lookup_snapshot.
  - unfold exec. rewrite !store_wrappedSubmit. by destruct (onSubmit _ _).
  - eexists. split; [apply hooks_submit_calls|].
    split; [by apply payload_lookup_extra|].
    intros k' Hk'. by apply payload_lookup_snapshot.
  - unfold exec. rewrite !hooks_submit. by destruct (onSubmit _ _).
Qed.

(** [submit({content: "x"})] on a composer whose content is "hi": the handler
    is given the content "x". *)
Lemma extra_data_overrides_snapshot_witness :
  let onSubmit : handler := λ _ _, Resolved in
  let e : gmap string val := {[ "content" := VPrim (PStr "x") ]} in
  let wa := World (Store.mk "hi" [] ∅ false (Store.wrappedSubmit_of onSubmit))
              [] [] in
  ∃ p, calls (exec (Store.wrappedSubmit onSubmit e) wa) = [p] ∧
       p !! "content" = Some (VPrim (PStr "x")).
Proof.
  intros onSubmit e wa.
  destruct (extra_data_overrides_snapshot onSubmit e "content"
              (VPrim (PStr "x")) wa (mkState "hi" [] ∅ false)
              (World (mkState "hi" [] ∅ false) [] []))
    as [(p & Hcalls & Hp & _) _]; [reflexivity|].
  exists p. split; [exact Hcalls | exact Hp].
Defined.

(** ** The accessor *)

(** C8. Outside any provider the context is the default [null], and
    [useComposer()] throws the error "useComposer must be used within
    ComposerProvider": it returns no value, whatever argument it is given.
    A consumer of the library that calls it, [TypingIndicator], does not
    catch the error: its render ends by the same throw. *)
Theorem useComposer_outside_provider (C X : Type) (selector : option (C → X)) :
  useComposer (@nil C) selector
  = Throw (Error "useComposer must be used within ComposerProvider") ∧
  (∀ context : C, useComposer (@nil C) selector ≠ Normal context) ∧
  TypingIndicator []
  = Throw (Error "useComposer must be used within ComposerProvider").
Proof. split_and!; [reflexivity | discriminate | reflexivity]. Qed.

(** ** The two realizations *)

Section simulation.
Variable onSubmit : handler.

Lemma same_view_new (initialValue : string) :
  same_view onSubmit
    (World (Store.ComposerProvider onSubmit initialValue) [] [])
    (World (Hooks.ComposerProvider initialValue) [] []).
Proof. by repeat split. Qed.

Lemma store_call_submit (e : gmap string val) (w : world Store.t) :
  Store.submit (container w) = Store.wrappedSubmit_of onSubmit →
  Store.call_submit e w = Store.wrappedSubmit onSubmit e w.
Proof.
  intros Hs. unfold Store.call_submit, mbind, M_bind, Store.getState, get.
  by rewrite Hs.
Qed.

(** One event keeps the worlds in correspondence, and completes alike. *)
Lemma same_view_step (o : op) (wa : world Store.t) (wb : world State) :
  same_view onSubmit wa wb →
  completes (run_store o) wa = Normal tt ∧
  completes (run_hooks onSubmit o) wb = Normal tt ∧
  same_view onSubmit (exec (run_store o) wa) (exec (run_hooks onSubmit o) wb).
Proof.
  destruct wa as [[c a m i sub] cs out], wb as [sb cs' out'].
  intros (Hsub & Hobs & Hcalls & Hout). simpl in *. subst sb cs' out' sub.
  unfold completes, exec.
  destruct o as [v|x|j|k v| |e]; simpl run_store; simpl run_hooks;
    try (by repeat split).
  rewrite store_call_submit by done.
  rewrite hooks_call_submit, store_wrappedSubmit, hooks_submit. simpl.
  unfold store_payload, hooks_payload. simpl.
  by destruct (onSubmit _ _).
Qed.

Lemma same_view_run_all (os : list op) :
  ∀ (wa : world Store.t) (wb : world State),
  same_view onSubmit wa wb →
  completes (run_all run_store os) wa = Normal tt ∧
  completes (run_all (run_hooks onSubmit) os) wb = Normal tt ∧
  same_view onSubmit (exec (run_all run_store os) wa)
    (exec (run_all (run_hooks onSubmit) os) wb).
Proof.
  induction os as [|o os IH]; intros wa wb Hview; [done|].
  destruct (same_view_step o wa wb Hview) as (Ha & Hb & Hview').
  destruct (IH _ _ Hview') as (Ha' & Hb' & Hview'').
  unfold completes, exec in *. simpl. unfold mbind, M_bind.
  destruct (run_store o wa) as [ra wa'], (run_hooks onSubmit o wb) as [rb wb'].
  simpl in *. by subst ra rb.
Qed.
End simulation.

(** C9, as the code has it.  Two composers created with the same handler and
    the same initial value, one on the store (after the provider's effect
    installed [wrappedSubmit]) and one on [useState] cells, that receive the
    same sequence of operations ([updateContent], [addAttachment],
    [removeAttachment], [updateMetadata], [reset], [submit]), each called
    from the latest render, show the same content, attachments, metadata and
    [isSubmitting]; they also called the handler with the same payloads and
    logged the same, and every operation completed normally in both. *)
Theorem realizations_agree (onSubmit : handler) (initialValue : string)
    (os : list op) :
  let start_a := World (Store.ComposerProvider onSubmit initialValue) [] [] in
  let start_b := World (Hooks.ComposerProvider initialValue) [] [] in
  let wa := exec (run_all run_store os) start_a in
  let wb := exec (run_all (run_hooks onSubmit) os) start_b in
  Store.observe (container wa) = container wb ∧
  calls wa = calls wb ∧
  console wa = console wb ∧
  completes (run_all run_store os) start_a = Normal tt ∧
  completes (run_all (run_hooks onSubmit) os) start_b = Normal tt.
Proof.
  intros start_a start_b wa wb.
  destruct (same_view_run_all onSubmit os start_a start_b
              (same_view_new onSubmit initialValue))
    as (Ha & Hb & _ & Hobs & Hcalls & Hout).
  done.
Qed.

(** C9, as the specification words it, fails for a [submit] that is not of
    the latest render.  A consumer calls [updateContent("hi")] and then
    [submit()] in one event handler, on a new composer whose handler rejects
    an empty content.  The store's [wrappedSubmit] reads the store at the
    call, sends "hi", and resets on success; the [submit] of the
    [useState]-based provider is the closure of the first render, sends the
    empty content, and the rejection leaves "hi" in place. *)
Lemma realizations_differ_on_stale_submit :
  let onSubmit : handler := λ _ p,
    match p !! "content" with
    | Some (VPrim (PStr "")) => Rejected (Error "empty message")
    | _ => Resolved
    end in
  let start_a := World (Store.ComposerProvider onSubmit "") [] [] in
  let start_b := World (Hooks.ComposerProvider "") [] [] in
  let first_render := Hooks.ComposerProvider "" in
  let wa := exec (Store.updateContent "hi";; Store.call_submit ∅) start_a in
  let wb := exec (Hooks.updateContent "hi";;
                  Hooks.submit onSubmit first_render ∅) start_b in
  Store.content (container wa) = "" ∧
  content (container wb) = "hi" ∧
  Store.observe (container wa) ≠ container wb.
Proof.
  intros onSubmit start_a start_b first_render wa wb.
  assert (Ha : Store.content (container wa) = "") by (vm_compute; reflexivity).
  assert (Hb : content (container wb) = "hi") by (vm_compute; reflexivity).
  split_and!; [exact Ha | exact Hb |].
  intros Heq. apply (f_equal content) in Heq.
  change (content (Store.observe (container wa)))
    with (Store.content (container wa)) in Heq.
  rewrite Ha, Hb in Heq. discriminate.
Qed.

(** C4, on the code.  [useComposer] declares no parameter: with or without a
    selector it returns the whole context value.  Under the [useState]-based
    provider a consumer that passes a selector of [content] is handed the
    whole snapshot, and after [updateMetadata("draft", true)] it is handed a
    different one, although the content it selects is the same. *)
Theorem useComposer_drops_selector :
  (∀ (C X : Type) (context : C) (scope : list C) (selector : C → X),
     useComposer (context :: scope) (Some selector) = Normal context ∧
     useComposer (context :: scope) (Some selector)
     = useComposer (X := X) (context :: scope) None) ∧
  let before := Hooks.ComposerProvider "hi" in
  let after :=
    container (exec (Hooks.updateMetadata "draft" (VPrim (PBool true)))
                 (World before [] [])) in
  useComposer [before] (Some content) = Normal before ∧
  useComposer [after] (Some content) = Normal after ∧
  content before = content after ∧
  before ≠ after.
Proof.
  split; [by intros|].
  intros before after. split_and!; [reflexivity | reflexivity | reflexivity |].
  intros Heq. apply (f_equal (λ s, metadata s !! "draft")) in Heq.
  vm_compute in Heq. discriminate.
Qed.

(** * Further properties of the code *)

(** ** Submits and handler calls *)

Lemma submits_cons (o : op) (os : list op) :
  submits (o :: os) = (if is_submit o then 1 else 0) + submits os.
Proof.
  unfold submits. destruct (is_submit o) eqn:Ho.
  - by rewrite filter_cons_True.
  - rewrite filter_cons_False; [done|]. by rewrite Ho.
Qed.

(** A store that still holds the placeholder: one event. *)
Lemma placeholder_step (o : op) (w : world Store.t) :
  Store.submit (container w) = Store.placeholder →
  let w' := exec (run_store o) w in
  completes (run_store o) w = Normal tt ∧
  Store.submit (container w') = Store.placeholder ∧
  Store.isSubmitting (container w') = Store.isSubmitting (container w) ∧
  calls w' = calls w ∧
  console w' = console w ++
    (if is_submit o then [console_warn "Submit function not initialized"]
     else []).
Proof.
  destruct w as [[c a m i sub] cs out]. simpl. intros ->.
  destruct o; simpl; rewrite ?app_nil_r; done.
Qed.

(** X1. A store that [createComposerStore] returned and no provider effect
    has touched ignores [submit]: whatever the events, no handler is called,
    [isSubmitting] stays [false], nothing fails, and each [submit] only
    writes the warning "Submit function not initialized". *)
Theorem placeholder_submit_only_warns (initialValue : string) (os : list op) :
  let w := exec (run_all run_store os)
             (World (Store.createComposerStore initialValue) [] []) in
  completes (run_all run_store os)
    (World (Store.createComposerStore initialValue) [] []) = Normal tt ∧
  calls w = [] ∧
  Store.isSubmitting (container w) = false ∧
  console w
  = replicate (submits os) (console_warn "Submit function not initialized").
Proof.
  assert (Hgen : ∀ w0 : world Store.t,
    Store.submit (container w0) = Store.placeholder →
    completes (run_all run_store os) w0 = Normal tt ∧
    calls (exec (run_all run_store os) w0) = calls w0 ∧
    Store.isSubmitting (container (exec (run_all run_store os) w0))
    = Store.isSubmitting (container w0) ∧
    console (exec (run_all run_store os) w0)
    = console w0 ++
      replicate (submits os) (console_warn "Submit function not initialized")).
  { induction os as [|o os IH]; intros w0 Hsub.
    - simpl. by rewrite app_nil_r.
    - destruct (placeholder_step o w0 Hsub) as (Hc & Hsub' & Hi & Hcalls & Hout).
      destruct (IH _ Hsub') as (Hc' & Hcalls' & Hi' & Hout').
      unfold completes, exec in *. simpl. unfold mbind, M_bind.
      destruct (run_store o w0) as [r w1]. simpl in *. subst r.
      rewrite Hc', Hcalls', Hi', Hout', Hcalls, Hi, Hout, submits_cons.
      split_and!; try done.
      rewrite <- app_assoc. by destruct (is_submit o). }
  intros w. by apply (Hgen (World (Store.createComposerStore initialValue) [] [])).
Qed.

(** A store whose provider effect ran: one event. *)
Lemma wrapped_step (onSubmit : handler) (o : op) (w : world Store.t) :
  Store.submit (container w) = Store.wrappedSubmit_of onSubmit →
  let w' := exec (run_store o) w in
  Store.submit (container w') = Store.wrappedSubmit_of onSubmit ∧
  length (calls w') = length (calls w) + (if is_submit o then 1 else 0) ∧
  (Store.isSubmitting (container w) = false →
   Store.isSubmitting (container w') = false) ∧
  length (console w') ≤ length (console w) + (if is_submit o then 1 else 0).
Proof.
  intros Hsub. destruct o as [v|x|j|k v| |e]; simpl;
    try (destruct w as [[c a m i sub] cs out]; simpl in *;
         split_and!; [done | lia | done | lia]).
  unfold exec. rewrite (store_call_submit onSubmit) by done.
  rewrite store_wrappedSubmit.
  destruct (onSubmit _ _); simpl; rewrite ?length_app; simpl;
    split_and!; try done; lia.
Qed.

Lemma wrapped_run_all (onSubmit : handler) (os : list op) :
  ∀ w : world Store.t,
  Store.submit (container w) = Store.wrappedSubmit_of onSubmit →
  let w' := exec (run_all run_store os) w in
  length (calls w') = length (calls w) + submits os ∧
  (Store.isSubmitting (container w) = false →
   Store.isSubmitting (container w') = false) ∧
  length (console w') ≤ length (console w) + submits os.
Proof.
  induction os as [|o os IH]; intros w Hsub.
  - unfold exec, submits. simpl. split_and!; [lia | done | lia].
  - destruct (wrapped_step onSubmit o w Hsub) as (Hsub' & Hcalls & Hi & Hout).
    destruct (IH _ Hsub') as (Hcalls' & Hi' & Hout').
    destruct (same_view_step onSubmit o w
                (World (Store.observe (container w)) (calls w) (console w)))
      as (Hc & _); [done|].
    unfold completes, exec in *. simpl. unfold mbind, M_bind.
    destruct (run_store o w) as [r w1]. simpl in *. subst r.
    rewrite submits_cons. split_and!; [lia | auto | lia].
Qed.

(** X2. Between a new composer and any later moment at rest, the handler has
    been called exactly once per [submit] (no other operation calls it, and
    a failed submit counts), [isSubmitting] is [false], and at most one
    console line per [submit] was written.  On the store and on the
    [useState] cells. *)
Theorem one_handler_call_per_submit (onSubmit : handler)
    (initialValue : string) (os : list op) :
  let wa := exec (run_all run_store os)
              (World (Store.ComposerProvider onSubmit initialValue) [] []) in
  let wb := exec (run_all (run_hooks onSubmit) os)
              (World (Hooks.ComposerProvider initialValue) [] []) in
  (length (calls wa) = submits os ∧
   Store.isSubmitting (container wa) = false ∧
   length (console wa) ≤ submits os) ∧
  (length (calls wb) = submits os ∧
   isSubmitting (container wb) = false ∧
   length (console wb) ≤ submits os).
Proof.
  intros wa wb.
  destruct (wrapped_run_all onSubmit os
              (World (Store.ComposerProvider onSubmit initialValue) [] []))
    as (Hcalls & Hi & Hout); [done|].
  destruct (same_view_run_all onSubmit os _ _
              (same_view_new onSubmit initialValue))
    as (_ & _ & _ & Hobs & Hcs & Hcons).
  fold wa in Hcalls, Hi, Hout, Hobs, Hcs, Hcons.
  fold wb in Hobs, Hcs, Hcons.
  simpl in Hcalls, Hout. specialize (Hi eq_refl).
  split; [done|].
  rewrite <- Hcs, <- Hcons, <- Hobs. done.
Qed.

(** ** The provider effect *)

Lemma provider_effect_view (onSubmit : handler) (w : world Store.t) :
  same_view onSubmit (exec (Store.provider_effect onSubmit) w)
    (World (Store.observe (container w)) (calls w) (console w)).
Proof. by destruct w as [[c a m i sub] cs out]. Qed.

(** X3. When the provider's effect runs again for a new [onSubmit], the
    store keeps its content, attachments, metadata and [isSubmitting], and
    from then on behaves as a store that never had another handler: after
    any events, the state, the handler calls and the console are those of
    the [useState]-based provider run with the new handler from the same
    state, whatever [submit] the store held before. *)
Theorem provider_effect_rebinds (onSubmit : handler) (w : world Store.t)
    (os : list op) :
  let w1 := exec (Store.provider_effect onSubmit) w in
  let wa := exec (run_all run_store os) w1 in
  let wb := exec (run_all (run_hooks onSubmit) os)
              (World (Store.observe (container w)) (calls w) (console w)) in
  Store.observe (container w1) = Store.observe (container w) ∧
  calls w1 = calls w ∧ console w1 = console w ∧
  Store.submit (container wa) = Store.wrappedSubmit_of onSubmit ∧
  Store.observe (container wa) = container wb ∧
  calls wa = calls wb ∧
  console wa = console wb.
Proof.
  intros w1 wa wb.
  destruct (same_view_run_all onSubmit os _ _ (provider_effect_view onSubmit w))
    as (_ & _ & Hsub & Hobs & Hcalls & Hout).
  split_and!; try done; by destruct w as [[c a m i sub] cs out].
Qed.

(** ** A submit that failed, tried again *)

(** X4. After a submit that the handler rejected, a second [submit] with the
    same extra data sends the handler the very same payload: the failed
    attempt lost nothing of the content, the attachments or the metadata.
    On the store and on the [useState] cells (latest render). *)
Theorem retry_sends_same_payload (onSubmit : handler) (e : gmap string val)
    (error : val) (wa : world Store.t) (wb : world State) :
  onSubmit (calls wa) (store_payload (container wa) e) = Rejected error →
  onSubmit (calls wb) (hooks_payload (container wb) e) = Rejected error →
  calls (exec (Store.wrappedSubmit onSubmit e;; Store.wrappedSubmit onSubmit e)
           wa)
  = calls wa ++ [store_payload (container wa) e; store_payload (container wa) e]
  ∧
  calls (exec (Hooks.call_submit onSubmit e;; Hooks.call_submit onSubmit e) wb)
  = calls wb ++ [hooks_payload (container wb) e; hooks_payload (container wb) e].
Proof.
  intros Ha Hb. unfold exec, mbind, M_bind. split.
  - rewrite store_wrappedSubmit, Ha, store_wrappedSubmit. simpl.
    match goal with
    | |- context [match ?x with Resolved => _ | Rejected _ => _ end] =>
        destruct x
    end; simpl; rewrite <- app_assoc; reflexivity.
  - rewrite hooks_call_submit, hooks_submit, Hb.
    rewrite hooks_call_submit, hooks_submit. simpl.
    match goal with
    | |- context [match ?x with Resolved => _ | Rejected _ => _ end] =>
        destruct x
    end; simpl; rewrite <- app_assoc; reflexivity.
Qed.

(** A handler that rejects every call, and a draft with one attachment. *)
Lemma retry_sends_same_payload_witness :
  let onSubmit : handler := λ _ _, Rejected (Error "offline") in
  let a := Attachment (PNum 7) {[ "name" := VPrim (PStr "a.pdf") ]} in
  let wb := World (mkState "draft" [a] ∅ false) [] [] in
  calls (exec (Hooks.call_submit onSubmit ∅;; Hooks.call_submit onSubmit ∅) wb)
  = [hooks_payload (container wb) ∅; hooks_payload (container wb) ∅].
Proof.
  intros onSubmit a wb.
  exact (proj2 (retry_sends_same_payload onSubmit ∅ (Error "offline")
                  (World (Store.mk "draft" [a] ∅ false
                            (Store.wrappedSubmit_of onSubmit)) [] [])
                  wb eq_refl eq_refl)).
Defined.

(** ** Attachments: how the operations compose *)

Lemma filter_id_app_one (a : attachment) (l : list attachment) :
  filter (λ b, strict_neq (id b) (id a) = true) (l ++ [a])
  = filter (λ b, strict_neq (id b) (id a) = true) l.
Proof.
  rewrite filter_app, filter_cons_False, filter_nil, app_nil_r; [done|].
  rewrite strict_neq_true. tauto.
Qed.

(** X5. [addAttachment(a)] followed by [removeAttachment(a.id)] gives back
    the state there was, when no attachment had that id before: the pair is
    a round trip.  On the store and on the [useState] cells. *)
Theorem add_then_remove_round_trip (a : attachment)
    (wa : world Store.t) (wb : world State) :
  id a ∉ id <$> Store.attachments (container wa) →
  id a ∉ id <$> attachments (container wb) →
  exec (Store.addAttachment a;; Store.removeAttachment (id a)) wa = wa ∧
  exec (Hooks.addAttachment a;; Hooks.removeAttachment (id a)) wb = wb.
Proof.
  intros Ha Hb. unfold exec, mbind, M_bind.
  rewrite store_addAttachment, store_removeAttachment.
  rewrite hooks_addAttachment, hooks_removeAttachment. simpl.
  rewrite !filter_id_app_one, !kept_no_match by done.
  by destruct wa as [[] ? ?], wb as [[] ? ?].
Qed.

(** The test bench's pair: [addAttachment({id: '1', name: 'test.pdf'})] and
    [removeAttachment('1')], on a new composer. *)
Lemma add_then_remove_round_trip_witness :
  let a := Attachment (PStr "1") {[ "name" := VPrim (PStr "test.pdf") ]} in
  let wb := World (Hooks.ComposerProvider "") [] [] in
  exec (Hooks.addAttachment a;; Hooks.removeAttachment (PStr "1")) wb = wb.
Proof.
  intros a wb.
  refine (proj2 (add_then_remove_round_trip a
                   (World (Store.createComposerStore "") [] []) wb _ _));
    apply (bool_decide_unpack _); vm_compute; exact I.
Defined.

(** X6. Removing the same id twice is removing it once, and removals of two
    ids can be made in either order.  On the store and on the [useState]
    cells. *)
Theorem removeAttachment_idempotent_commutes (i j : prim)
    (wa : world Store.t) (wb : world State) :
  (exec (Store.removeAttachment i;; Store.removeAttachment i) wa
   = exec (Store.removeAttachment i) wa ∧
   exec (Store.removeAttachment i;; Store.removeAttachment j) wa
   = exec (Store.removeAttachment j;; Store.removeAttachment i) wa) ∧
  (exec (Hooks.removeAttachment i;; Hooks.removeAttachment i) wb
   = exec (Hooks.removeAttachment i) wb ∧
   exec (Hooks.removeAttachment i;; Hooks.removeAttachment j) wb
   = exec (Hooks.removeAttachment j;; Hooks.removeAttachment i) wb).
Proof.
  unfold exec, mbind, M_bind.
  rewrite !store_removeAttachment, !hooks_removeAttachment. simpl.
  rewrite !list_filter_filter.
  split; split; do 2 f_equal; apply list_filter_iff; intros a; tauto.
Qed.

(** ** Metadata: how the updates compose *)

(** X7. Updates of two different metadata keys can be made in either order:
    every key maps to the same value afterwards; and writing to a key the
    value it already has changes no lookup.  On the store and on the
    [useState] cells. *)
Theorem updateMetadata_independent_keys (k1 k2 k : string) (v1 v2 : val)
    (wa : world Store.t) (wb : world State) :
  k1 ≠ k2 →
  let ma12 := Store.metadata (container
    (exec (Store.updateMetadata k1 v1;; Store.updateMetadata k2 v2) wa)) in
  let ma21 := Store.metadata (container
    (exec (Store.updateMetadata k2 v2;; Store.updateMetadata k1 v1) wa)) in
  let mb12 := metadata (container
    (exec (Hooks.updateMetadata k1 v1;; Hooks.updateMetadata k2 v2) wb)) in
  let mb21 := metadata (container
    (exec (Hooks.updateMetadata k2 v2;; Hooks.updateMetadata k1 v1) wb)) in
  (ma12 !! k = ma21 !! k ∧ ma12 !! k1 = Some v1 ∧ ma12 !! k2 = Some v2) ∧
  (mb12 !! k = mb21 !! k ∧ mb12 !! k1 = Some v1 ∧ mb12 !! k2 = Some v2).
Proof.
  intros Hne. unfold exec, mbind, M_bind.
  rewrite !store_updateMetadata, !hooks_updateMetadata. simpl.
  split; (split; [by rewrite insert_insert_ne|]);
    by rewrite lookup_insert_eq, lookup_insert_ne, lookup_insert_eq.
Qed.

(** A thread id and a draft flag, set in either order. *)
Lemma updateMetadata_independent_keys_witness :
  let wa := World (Store.createComposerStore "") [] [] in
  Store.metadata (container
    (exec (Store.updateMetadata "thread" (VPrim (PNum 4));;
           Store.updateMetadata "draft" (VPrim (PBool true))) wa)) !! "thread"
  = Some (VPrim (PNum 4)).
Proof.
  intros wa.
  destruct (updateMetadata_independent_keys "thread" "draft" "thread"
              (VPrim (PNum 4)) (VPrim (PBool true)) wa
              (World (Hooks.ComposerProvider "") [] []))
    as [(_ & H1 & _) _]; [discriminate | exact H1].
Defined.

(** ** reset against the edits before it *)

Lemma edits_then_reset_store (os : list op) :
  submits os = 0 →
  ∀ w : world Store.t,
  (run_all run_store os;; Store.reset) w = Store.reset w.
Proof.
  induction os as [|o os IH]; intros Hno w; [done|].
  rewrite submits_cons in Hno.
  assert (Hos : submits os = 0) by (destruct (is_submit o); lia).
  destruct o as [v|x|j|k v| |e]; simpl in Hno; try lia.
  - trans ((run_all run_store os;; Store.reset)
             (exec (run_store (UpdateContent v)) w)); [done|].
    by rewrite IH.
  - trans ((run_all run_store os;; Store.reset)
             (exec (run_store (AddAttachment x)) w)); [done|].
    by rewrite IH.
  - trans ((run_all run_store os;; Store.reset)
             (exec (run_store (RemoveAttachment j)) w)); [done|].
    by rewrite IH.
  - trans ((run_all run_store os;; Store.reset)
             (exec (run_store (UpdateMetadata k v)) w)); [done|].
    by rewrite IH.
  - trans ((run_all run_store os;; Store.reset)
             (exec (run_store Reset) w)); [done|].
    by rewrite IH.
Qed.

Lemma edits_then_reset_hooks (onSubmit : handler) (os : list op) :
  submits os = 0 →
  ∀ w : world State,
  (run_all (run_hooks onSubmit) os;; Hooks.reset) w = Hooks.reset w.
Proof.
  induction os as [|o os IH]; intros Hno w; [done|].
  rewrite submits_cons in Hno.
  assert (Hos : submits os = 0) by (destruct (is_submit o); lia).
  destruct o as [v|x|j|k v| |e]; simpl in Hno; try lia.
  - trans ((run_all (run_hooks onSubmit) os;; Hooks.reset)
             (exec (run_hooks onSubmit (UpdateContent v)) w)); [done|].
    by rewrite IH.
  - trans ((run_all (run_hooks onSubmit) os;; Hooks.reset)
             (exec (run_hooks onSubmit (AddAttachment x)) w)); [done|].
    by rewrite IH.
  - trans ((run_all (run_hooks onSubmit) os;; Hooks.reset)
             (exec (run_hooks onSubmit (RemoveAttachment j)) w)); [done|].
    by rewrite IH.
  - trans ((run_all (run_hooks onSubmit) os;; Hooks.reset)
             (exec (run_hooks onSubmit (UpdateMetadata k v)) w)); [done|].
    by rewrite IH.
  - trans ((run_all (run_hooks onSubmit) os;; Hooks.reset)
             (exec (run_hooks onSubmit Reset) w)); [done|].
    by rewrite IH.
Qed.

(** X8. [reset()] discards every edit made before it: after any sequence of
    [updateContent], [addAttachment], [removeAttachment], [updateMetadata]
    and [reset] calls, a [reset] leaves the world a [reset] alone would have
    left (the edits called no handler, logged nothing, and did not touch
    [isSubmitting]).  On the store and on the [useState] cells. *)
Theorem reset_discards_edits (onSubmit : handler) (os : list op)
    (wa : world Store.t) (wb : world State) :
  submits os = 0 →
  (run_all run_store os;; Store.reset) wa = Store.reset wa ∧
  (run_all (run_hooks onSubmit) os;; Hooks.reset) wb = Hooks.reset wb.
Proof.
  intros Hno. split.
  - by apply edits_then_reset_store.
  - by apply edits_then_reset_hooks.
Qed.

(** Typing, attaching a file and tagging a thread, then Cancel. *)
Lemma reset_discards_edits_witness :
  let os := [UpdateContent "hi"; AddAttachment (fakeFile 5);
             UpdateMetadata "thread" (VPrim (PNum 4))] in
  let wa := World (Store.createComposerStore "old") [] [] in
  (run_all run_store os;; Store.reset) wa = Store.reset wa.
Proof.
  intros os wa.
  exact (proj1 (reset_discards_edits (λ _ _, Resolved) os wa
                  (World (Hooks.ComposerProvider "old") [] []) eq_refl)).
Defined.

(** ** submit without a guard, and without a handler *)

(** X9. [submit] does not look at [isSubmitting]: called while the flag is
    [true] (another submit is in flight) it does what it does when the flag
    is [false].  It calls the handler once more with the current payload,
    completes normally, and leaves the flag [false].  On the store and on
    the [useState] cells. *)
Theorem submit_not_guarded (onSubmit : handler) (e : gmap string val)
    (c : string) (a : list attachment) (m : gmap string val)
    (sub : Store.submit_fn) (rendered : State)
    (cs : list (gmap string val)) (out : list console_entry) :
  let busy_a := World (Store.mk c a m true sub) cs out in
  let idle_a := World (Store.mk c a m false sub) cs out in
  let busy_b := World (mkState c a m true) cs out in
  let idle_b := World (mkState c a m false) cs out in
  (Store.wrappedSubmit onSubmit e busy_a = Store.wrappedSubmit onSubmit e idle_a ∧
   calls (exec (Store.wrappedSubmit onSubmit e) busy_a)
   = cs ++ [payload c a m e] ∧
   Store.isSubmitting (container (exec (Store.wrappedSubmit onSubmit e) busy_a))
   = false ∧
   completes (Store.wrappedSubmit onSubmit e) busy_a = Normal tt) ∧
  (Hooks.submit onSubmit rendered e busy_b
   = Hooks.submit onSubmit rendered e idle_b ∧
   calls (exec (Hooks.submit onSubmit rendered e) busy_b)
   = cs ++ [hooks_payload rendered e] ∧
   isSubmitting (container (exec (Hooks.submit onSubmit rendered e) busy_b))
   = false ∧
   completes (Hooks.submit onSubmit rendered e) busy_b = Normal tt).
Proof.
  intros busy_a idle_a busy_b idle_b. unfold exec, completes.
  rewrite !store_wrappedSubmit, !hooks_submit. simpl.
  unfold store_payload. simpl.
  by destruct (onSubmit cs (payload c a m e)),
              (onSubmit cs (hooks_payload rendered e)).
Qed.

Lemma store_wrappedSubmit_prop (not_a_function : string)
    (onSubmit : option handler) (e : gmap string val) (w : world Store.t) :
  wrappedSubmit_prop not_a_function onSubmit e w =
  match onSubmit with
  | Some h => Store.wrappedSubmit h e w
  | None =>
      (Normal tt,
       World (Store.mk (Store.content (container w))
                (Store.attachments (container w))
                (Store.metadata (container w)) false
                (Store.submit (container w)))
         (calls w)
         (console w ++
          [console_error "Submission failed:" (TypeError not_a_function)]))
  end.
Proof. by destruct onSubmit. Qed.

(** X10. A provider that is given no [onSubmit] (as the test wrappers
    [MockComposerProvider] and [TestComposerContext] create it) never clears
    the composer: [submit] catches the [TypeError] of calling [undefined],
    logs it, keeps content, attachments and metadata, calls no handler and
    ends with [isSubmitting] [false]; with an [onSubmit] it is the
    [wrappedSubmit] of that handler. *)
Theorem submit_without_handler_keeps_state (not_a_function : string)
    (e : gmap string val) (w : world Store.t) :
  let w' := exec (wrappedSubmit_prop not_a_function None e) w in
  completes (wrappedSubmit_prop not_a_function None e) w = Normal tt ∧
  calls w' = calls w ∧
  console w'
  = console w ++ [console_error "Submission failed:" (TypeError not_a_function)] ∧
  Store.content (container w') = Store.content (container w) ∧
  Store.attachments (container w') = Store.attachments (container w) ∧
  Store.metadata (container w') = Store.metadata (container w) ∧
  Store.isSubmitting (container w') = false ∧
  ∀ h : handler,
    wrappedSubmit_prop not_a_function (Some h) e w = Store.wrappedSubmit h e w.
Proof.
  unfold exec, completes. rewrite store_wrappedSubmit_prop. simpl.
  by split_and!.
Qed.

(** ** The composed variants *)

Lemma union_tags_lookup_data (data tags : gmap string val) (k : string)
    (x : val) :
  data !! k = Some x → (data ∪ tags) !! k = Some x.
Proof. intros Hk. by apply lookup_union_Some_l. Qed.

Lemma union_tags_lookup_tag (data tags : gmap string val) (k : string) :
  data !! k = None → (data ∪ tags) !! k = tags !! k.
Proof. intros Hk. by rewrite lookup_union_r. Qed.

(** X11. In the message a variant hands to the application's callback, the
    submitted data is spread last: a key of the data (the content, the
    attachments, the metadata, and any extra data of the submit) keeps its
    value, also when it is [type], [channel], [threadId] or [messageId]; the
    variant's own tag is there only when the data has no such key. *)
Theorem variant_message_data_wins (channelName : string)
    (threadId messageId : prim) (data : gmap string val) (k : string)
    (x : val) :
  data !! k = Some x →
  (channel_message channelName data !! k = Some x ∧
   thread_message threadId channelName data !! k = Some x ∧
   edit_message messageId data !! k = Some x) ∧
  (data !! "type" = None →
   channel_message channelName data !! "type" = Some (VPrim (PStr "channel")) ∧
   thread_message threadId channelName data !! "type"
   = Some (VPrim (PStr "thread_reply")) ∧
   edit_message messageId data !! "type" = Some (VPrim (PStr "edit_message"))).
Proof.
  intros Hk. split.
  - split_and!; by apply union_tags_lookup_data.
  - intros Hty.
    unfold channel_message, thread_message, edit_message.
    by rewrite !union_tags_lookup_tag.
Qed.

(** [submit({type: 'draft'})] in a channel composer: the callback sees the
    type "draft". *)
Lemma variant_message_data_wins_witness :
  let data := payload "hi" [] ∅ {[ "type" := VPrim (PStr "draft") ]} in
  channel_message "general" data !! "type" = Some (VPrim (PStr "draft")).
Proof.
  intros data.
  destruct (variant_message_data_wins "general" (PStr "thread-1") (PNum 1)
              data "type" (VPrim (PStr "draft")))
    as [(H & _) _]; [reflexivity | exact H].
Defined.



(** ** The attachment list and its buttons *)






(** ** withComposerTracking *)

Lemma tracked_submit_eq (onSubmit : option handler) (data : gmap string val)
    (w : world tracking) :
  let n := messageCount (container w) in
  let t' := Tracking (n + 1) (logged (container w) ++ [(n + 1, data)]) in
  tracked_submit onSubmit data w =
  match onSubmit with
  | None => (Normal tt, World t' (calls w) (console w))
  | Some h =>
      (match h (calls w) data with
       | Resolved => Normal tt
       | Rejected error => Throw error
       end,
       World t' (calls w ++ [data]) (console w))
  end.
Proof.
  destruct onSubmit as [h|]; [|done].
  unfold tracked_submit, handleSubmit, mbind, M_bind, await_call. simpl.
  by destruct (h _ _).
Qed.

(** X15. The "Messages sent" counter of [withComposerTracking] counts the
    submits, not the messages sent: after any submits it has grown by their
    number, whether the wrapped [onSubmit] resolved, rejected, or is
    missing; the k-th submit logged the number k (counting from the counter
    plus one), and the wrapped [onSubmit], when there is one, was called
    with each data in order. *)
Theorem tracking_counts_every_submit (onSubmit : option handler)
    (datas : list (gmap string val)) (w : world tracking) :
  let w' := tracked_submits onSubmit datas w in
  let n := messageCount (container w) in
  messageCount (container w') = n + length datas ∧
  logged (container w')
  = logged (container w) ++ imap (λ i data, (n + i + 1, data)) datas ∧
  calls w' = calls w ++ match onSubmit with Some _ => datas | None => [] end ∧
  console w' = console w.
Proof.
  revert w. induction datas as [|data datas IH]; intros w.
  - simpl. destruct onSubmit; rewrite !app_nil_r; split_and!; try done; lia.
  - simpl. specialize (IH (exec (tracked_submit onSubmit data) w)).
    destruct IH as (Hn & Hlog & Hcalls & Hout).
    rewrite Hn, Hlog, Hcalls, Hout. clear Hn Hlog Hcalls Hout.
    unfold exec. rewrite tracked_submit_eq.
    destruct onSubmit as [h|]; simpl.
    + split_and!; [lia | | by rewrite <- app_assoc | done].
      rewrite <- app_assoc. simpl. do 2 f_equal.
      * f_equal. lia.
      * apply imap_ext. intros i x _. simpl. f_equal. lia.
    + split_and!; [lia | | done | done].
      rewrite <- app_assoc. simpl. do 2 f_equal.
      * f_equal. lia.
      * apply imap_ext. intros i x _. simpl. f_equal. lia.
Qed.

(** X16. A submit whose wrapped [onSubmit] rejects is counted all the same,
    and [handleSubmit] passes the rejection on: its promise rejects with the
    same error (it has no [catch]). *)
Theorem tracking_counts_rejected_submit (h : handler)
    (data : gmap string val) (error : val) (w : world tracking) :
  h (calls w) data = Rejected error →
  completes (tracked_submit (Some h) data) w = Throw error ∧
  messageCount (container (exec (tracked_submit (Some h) data) w))
  = messageCount (container w) + 1.
Proof.
  intros Hrej. unfold completes, exec. rewrite tracked_submit_eq. simpl.
  by rewrite Hrej.
Qed.

(** The first message of a tracked composer, with the network down. *)
Lemma tracking_counts_rejected_submit_witness :
  let h : handler := λ _ _, Rejected (Error "offline") in
  let data := payload "hi" [] ∅ ∅ in
  let w := World (Tracking 0 []) [] [] in
  messageCount (container (exec (tracked_submit (Some h) data) w)) = 1.
Proof.
  intros h data w.
  exact (proj2 (tracking_counts_rejected_submit h data (Error "offline") w
                  eq_refl)).
Defined.

(** ** The typing indicator *)


